(** * Webhook transaction service: a model of [backend_assessment/main.py]

    The service keeps one module-level dictionary [TRANSACTIONS], guarded by
    one lock.  Three Flask handlers and one background function touch it:

    - [receive_webhook] registers a record (status [PROCESSING]) and hands a
      task to a pool of five threads;
    - [process_transaction] is that task: status check, a 30 s sleep, then
      the completion write;
    - [get_transaction_status] and [health_check] only read.

    Every [with transaction_lock:] block is one atomic step of the model.
    The clock ([datetime.now]) and the outcome of [time.sleep] belong to the
    environment, so the functions below take them as arguments. *)

From Stdlib Require Import ZArith String Ascii List Bool DecimalString.
From stdpp Require Import gmap strings.

Set Warnings "-register-all".
Local Open Scope string_scope.
Local Open Scope list_scope.
Local Open Scope nat_scope.

(** ** Python values *)

Module Py.

(** A Python [float] produced by [json.loads] from a JSON number with a
    fraction or exponent: [(-1)^neg * m * 2^e], a signed zero, or an
    infinity (literals such as [1e999] overflow to [inf]).  A JSON number
    literal never yields a NaN. *)
Inductive pyfloat : Type :=
| FZero (neg : bool)
| FInf (neg : bool)
| FFinite (neg : bool) (m : positive) (e : Z).

(** What [request.get_json()] hands back: [None], [bool], [int], [float],
    [str], [list], or [dict] (items in insertion order, looked up by first
    match). *)
Inductive pyval : Type :=
| PNone
| PBool (b : bool)
| PInt (z : Z)
| PFloat (f : pyfloat)
| PStr (s : string)
| PList (l : list pyval)
| PDict (d : list (string * pyval)).

Inductive exn : Type :=
| KeyError
| TypeError
| AttributeError
| OtherError (name : string).

(** Fallible computations: a value or a raised exception. *)
Inductive result (A : Type) : Type :=
| Ok (a : A)
| Raise (e : exn).
Arguments Ok {A} a.
Arguments Raise {A} e.

Definition bind {A B : Type} (r : result A) (k : A -> result B) : result B :=
  match r with
  | Ok a => k a
  | Raise e => Raise e
  end.

Notation "'let*' x ':=' r 'in' k" := (bind r (fun x => k))
  (at level 10, x name, r at level 100, k at level 200).

(** [bool(v)]: the truth value tested by [not data] and [if transaction:]. *)
Definition truthy (v : pyval) : bool :=
  match v with
  | PNone => false
  | PBool b => b
  | PInt z => negb (z =? 0)%Z
  | PFloat (FZero _) => false
  | PFloat _ => true
  | PStr s => negb (String.eqb s "")
  | PList l => match l with [] => false | _ => true end
  | PDict d => match d with [] => false | _ => true end
  end.

(** [sub in s] for two [str]: substring search. *)
Fixpoint contains (sub s : string) : bool :=
  String.prefix sub s ||
  match s with
  | EmptyString => false
  | String _ s' => contains sub s'
  end.

Definition dict_lookup (k : string) (d : list (string * pyval)) : option pyval :=
  snd <$> List.find (fun kv => String.eqb (fst kv) k) d.

(** [d.get(k)]: the value, or [None] when the key is missing. *)
Definition dict_get (k : string) (d : list (string * pyval)) : pyval :=
  default PNone (dict_lookup k d).

Definition is_str (k : string) (v : pyval) : bool :=
  match v with
  | PStr s => String.eqb s k
  | _ => false
  end.

(** [k in v] for a [str] [k]: key membership on a [dict], element equality
    on a [list], substring on a [str]; the other types are not iterable. *)
Definition py_in (k : string) (v : pyval) : result bool :=
  match v with
  | PDict d => Ok (bool_decide (is_Some (dict_lookup k d)))
  | PList l => Ok (existsb (is_str k) l)
  | PStr s => Ok (contains k s)
  | PNone | PBool _ | PInt _ | PFloat _ => Raise TypeError
  end.

(** [v[k]] for a [str] [k]: only a [dict] can be indexed by a string. *)
Definition py_getitem (v : pyval) (k : string) : result pyval :=
  match v with
  | PDict d =>
      match dict_lookup k d with
      | Some x => Ok x
      | None => Raise KeyError
      end
  | _ => Raise TypeError
  end.

(** [v.get(k)]: a method of [dict] only. *)
Definition py_get (v : pyval) (k : string) : result pyval :=
  match v with
  | PDict d => Ok (dict_get k d)
  | _ => Raise AttributeError
  end.

(** Dictionary keys.  Python identifies [1], [1.0] and [True] as one key,
    so numbers are kept in the normal form [m * 2^e] with [m] odd (or
    [m = 0], [e = 0]). *)
Inductive pykey : Type :=
| KNone
| KStr (s : string)
| KNum (m : Z) (e : Z)
| KInf (neg : bool).

Fixpoint odd_part (m : positive) (e : Z) : positive * Z :=
  match m with
  | xO p => odd_part p (e + 1)
  | _ => (m, e)
  end.

Definition num_key (neg : bool) (m : positive) (e : Z) : pykey :=
  let '(m', e') := odd_part m e in
  KNum (if neg then Z.neg m' else Z.pos m') e'.

Definition int_key (z : Z) : pykey :=
  match z with
  | Z0 => KNum 0 0
  | Z.pos p => num_key false p 0
  | Z.neg p => num_key true p 0
  end.

(** [hash(v)] succeeds for everything but [list] and [dict]. *)
Definition hashable (v : pyval) : result pykey :=
  match v with
  | PNone => Ok KNone
  | PBool b => Ok (int_key (if b then 1 else 0))
  | PInt z => Ok (int_key z)
  | PFloat (FZero _) => Ok (KNum 0 0)
  | PFloat (FInf neg) => Ok (KInf neg)
  | PFloat (FFinite neg m e) => Ok (num_key neg m e)
  | PStr s => Ok (KStr s)
  | PList _ | PDict _ => Raise TypeError
  end.

#[global] Instance pykey_eq_dec : EqDecision pykey.
Proof. solve_decision. Defined.

Definition pykey_code (k : pykey) : unit + string + (Z * Z) + bool :=
  match k with
  | KNone => inl (inl (inl tt))
  | KStr s => inl (inl (inr s))
  | KNum m e => inl (inr (m, e))
  | KInf b => inr b
  end.

Definition pykey_decode (c : unit + string + (Z * Z) + bool) : pykey :=
  match c with
  | inl (inl (inl _)) => KNone
  | inl (inl (inr s)) => KStr s
  | inl (inr (m, e)) => KNum m e
  | inr b => KInf b
  end.

#[global] Instance pykey_countable : Countable pykey.
Proof.
  apply (inj_countable' pykey_code pykey_decode).
  intros []; reflexivity.
Defined.

End Py.
Import Py.

(** ** Timestamps *)

(** The reading of [datetime.now(timezone.utc)]. *)
Record datetime : Type := {
  year : nat;
  month : nat;
  day : nat;
  hour : nat;
  minute : nat;
  second : nat;
  microsecond : nat
}.

(** ["%0<width>d" % n] *)
Definition zero_pad (width n : nat) : string :=
  let s := NilEmpty.string_of_uint (Nat.to_uint n) in
  string_of_list_ascii (repeat "0"%char (width - String.length s)) +:+ s.

(** Date and time part of [datetime.isoformat()]; the fraction is printed
    only when [microsecond] is not zero. *)
Definition iso_body (t : datetime) : string :=
  zero_pad 4 (year t) +:+ "-" +:+ zero_pad 2 (month t) +:+ "-" +:+
  zero_pad 2 (day t) +:+ "T" +:+ zero_pad 2 (hour t) +:+ ":" +:+
  zero_pad 2 (minute t) +:+ ":" +:+ zero_pad 2 (second t) +:+
  match microsecond t with
  | O => ""
  | us => "." +:+ zero_pad 6 us
  end.

(** [isoformat()] of an aware datetime whose offset is [timezone.utc]. *)
Definition isoformat (t : datetime) : string :=
  iso_body t +:+ "+00:00".

(** [str.replace(old, new)] for a non-empty [old]: left to right, matches
    do not overlap.  [skip] counts the characters of the current match
    still to be dropped. *)
Fixpoint replace_from (skip : nat) (old new s : string) : string :=
  match s with
  | EmptyString => EmptyString
  | String c s' =>
      match skip with
      | S k => replace_from k old new s'
      | O =>
          if String.prefix old s
          then new +:+ replace_from (String.length old - 1) old new s'
          else String c (replace_from 0 old new s')
      end
  end.

Definition replace (old new s : string) : string := replace_from 0 old new s.

Definition get_utc_timestamp (now : datetime) : string :=
  replace "+00:00" "Z" (isoformat now).



(** ** The transaction store *)

Inductive txn_status : Type := PROCESSING | PROCESSED.

(** The dictionary built in [receive_webhook] (and in [__main__]): always
    the same eight keys, so a record.  [processed_at] is [None] or a
    timestamp string. *)
Record transaction : Type := {
  transaction_id : pyval;
  source_account : pyval;
  destination_account : pyval;
  amount : pyval;
  currency : pyval;
  status : txn_status;
  created_at : string;
  processed_at : option string
}.

(** The module-level [TRANSACTIONS] dictionary. *)
Abbreviation store := (gmap pykey transaction).

Definition set_status (v : txn_status) (r : transaction) : transaction :=
  {| transaction_id := transaction_id r;
     source_account := source_account r;
     destination_account := destination_account r;
     amount := amount r;
     currency := currency r;
     status := v;
     created_at := created_at r;
     processed_at := processed_at r |}.

Definition set_processed_at (v : option string) (r : transaction) : transaction :=
  {| transaction_id := transaction_id r;
     source_account := source_account r;
     destination_account := destination_account r;
     amount := amount r;
     currency := currency r;
     status := status r;
     created_at := created_at r;
     processed_at := v |}.

(** [TRANSACTIONS[k][field] = v]: the subscript [TRANSACTIONS[k]] raises
    [KeyError] for a missing key, before anything is written. *)
Definition setitem_field (k : pykey) (f : transaction -> transaction) (T : store)
  : store * result unit :=
  match T !! k with
  | Some r => (<[k := f r]> T, Ok tt)
  | None => (T, Raise KeyError)
  end.

(** ** Logging *)

Inductive level : Type := INFO | WARNING | ERROR.

(** One constructor per format string of the module; the interpolated
    value is kept as it is. *)
Inductive log_msg : Type :=
| IdempotencySkip (txn_id : pyval)
| StartingProcessing (txn_id : pyval)
| SuccessfullyProcessed (txn_id : pyval)
| WebhookReceived (txn_id : pyval)
| DuplicateWebhook (txn_id : pyval)
| ErrorProcessingWebhook (e : exn).

Abbreviation log_entry := (level * log_msg)%type.

(** ** Background processing *)

(** How a call ends: it returns, or an exception leaves it. *)
Inductive outcome : Type :=
| Returned
| Raised (e : exn).

(** Where a call of [process_transaction] stands: before the status check,
    inside [time.sleep(30)], or over. *)
Inductive phase : Type :=
| AtCheck
| AtSleep
| Done (o : outcome).

(** First locked block: [TRANSACTIONS.get(txn_id, {}).get('status')]
    compared with ["PROCESSED"].  [true] is the skip. *)
Definition status_check (txn_id : pyval) (T : store) : result bool :=
  let* k := hashable txn_id in
  Ok match status <$> T !! k with
     | Some PROCESSED => true
     | _ => false
     end.

Definition check_step (transaction_data : transaction) (T : store)
  : phase * list log_entry :=
  let txn_id := transaction_id transaction_data in
  match status_check txn_id T with
  | Raise e => (Done (Raised e), [])
  | Ok true => (Done Returned, [(WARNING, IdempotencySkip txn_id)])
  | Ok false => (AtSleep, [(INFO, StartingProcessing txn_id)])
  end.

(** Second locked block: the two assignments of the completion write. *)
Definition completion_write (txn_id : pyval) (now : datetime) (T : store)
  : store * result unit :=
  match hashable txn_id with
  | Raise e => (T, Raise e)
  | Ok k =>
      match setitem_field k (set_status PROCESSED) T with
      | (T1, Raise e) => (T1, Raise e)
      | (T1, Ok _) =>
          setitem_field k (set_processed_at (Some (get_utc_timestamp now))) T1
      end
  end.

(** From [time.sleep(30)] to the end of the function.  [sleep] is what the
    sleep does: [None] when it returns, [Some e] when it raises [e].
    Nothing here catches an exception. *)
Definition wake_step (transaction_data : transaction) (sleep : option exn)
    (now : datetime) (T : store) : outcome * store * list log_entry :=
  let txn_id := transaction_id transaction_data in
  match sleep with
  | Some e => (Raised e, T, [])
  | None =>
      match completion_write txn_id now T with
      | (T', Raise e) => (Raised e, T', [])
      | (T', Ok _) => (Returned, T', [(INFO, SuccessfullyProcessed txn_id)])
      end
  end.

(** One call of [process_transaction] with no other thread touching the
    store while it sleeps. *)
Definition process_transaction (transaction_data : transaction)
    (sleep : option exn) (now : datetime) (T : store)
  : outcome * store * list log_entry :=
  match check_step transaction_data T with
  | (Done o, l) => (o, T, l)
  | (AtSleep, l) | (AtCheck, l) =>
      let '(o, T', l') := wake_step transaction_data sleep now T in
      (o, T', l ++ l')
  end.

(** ** API endpoints *)

Inductive resp_body : Type :=
| BodyError (error : string)
| BodyMessage (prefix : string) (txn_id : pyval)
| BodyRecord (r : transaction)
| BodyHealth (status : string) (current_time : string).

Record response : Type := {
  http_status : nat;
  body : resp_body
}.


Definition invalid_payload : response :=
  {| http_status := 400; body := BodyError "Invalid payload" |}.

Definition accepted (txn_id : pyval) : response :=
  {| http_status := 202;
     body := BodyMessage
               "Webhook received, processing started in background for "
               txn_id |}.

Definition internal_error : response :=
  {| http_status := 500;
     body := BodyError "Internal server error during webhook reception" |}.

(** What a handler leaves behind: the response, the store, the task given
    to [executor.submit] (if any) and the log lines. *)
Abbreviation handled :=
  (response * store * option transaction * list log_entry)%type.

(** The [try] block of [receive_webhook], from the validation on. *)
Definition webhook_try (data : pyval) (now : datetime) (T : store)
  : result handled :=
  if negb (truthy data) then Ok (invalid_payload, T, None, [])
  else
    let* has_id := py_in "transaction_id" data in
    if negb has_id then Ok (invalid_payload, T, None, [])
    else
      let* txn_id := py_getitem data "transaction_id" in
      let created_time := get_utc_timestamp now in
      let* src := py_get data "source_account" in
      let* dst := py_get data "destination_account" in
      let* amt := py_get data "amount" in
      let* cur := py_get data "currency" in
      let transaction_data :=
        {| transaction_id := txn_id;
           source_account := src;
           destination_account := dst;
           amount := amt;
           currency := cur;
           status := PROCESSING;
           created_at := created_time;
           processed_at := None |} in
      let* k := hashable txn_id in
      match T !! k with
      | None =>
          Ok (accepted txn_id, <[k := transaction_data]> T,
              Some transaction_data, [(INFO, WebhookReceived txn_id)])
      | Some _ =>
          Ok (accepted txn_id, T,
              Some transaction_data, [(INFO, DuplicateWebhook txn_id)])
      end.

(** [req] is the outcome of [request.get_json()]: the deserialized body, or
    the exception Flask raises for a body it cannot read.  The [except]
    clause turns every exception into the 500 answer; the store is only
    written by the last step of the [try] block, which cannot fail. *)
Definition receive_webhook (req : result pyval) (now : datetime) (T : store)
  : handled :=
  match let* data := req in webhook_try data now T with
  | Ok h => h
  | Raise e => (internal_error, T, None, [(ERROR, ErrorProcessingWebhook e)])
  end.

(** The route converter [<string:transaction_id>] always passes a [str].
    A stored record has eight keys, so [if transaction:] holds whenever the
    lookup found one. *)
Definition get_transaction_status (transaction_id : string) (T : store)
  : response :=
  match T !! KStr transaction_id with
  | Some transaction => {| http_status := 200; body := BodyRecord transaction |}
  | None => {| http_status := 404; body := BodyError "Transaction not found" |}
  end.

(** ** Start-up *)

(** [99.99] as a binary64. *)
Definition amount_99_99 : pyval := PFloat (FFinite false 7036170730324623 (-46)).

(** The record written by the [__main__] block; the two timestamps are two
    readings of the clock. *)
Definition txn_test_ready (now1 now2 : datetime) : transaction :=
  {| transaction_id := PStr "txn_test_ready";
     source_account := PStr "acc_user_100";
     destination_account := PStr "acc_merchant_100";
     amount := amount_99_99;
     currency := PStr "USD";
     status := PROCESSED;
     created_at := get_utc_timestamp now1;
     processed_at := Some (get_utc_timestamp now2) |}.

(** [TRANSACTIONS] when the module is run as a script. *)
Definition main (now1 now2 : datetime) : store :=
  <[KStr "txn_test_ready" := txn_test_ready now1 now2]> ∅.

(** ** The running service *)

(** [ThreadPoolExecutor(max_workers=5)] *)
Definition max_workers : nat := 5.

(** The shared dictionary, the executor's queue, every call of
    [process_transaction] started so far with the point it has reached, and
    the log.  The task of a first delivery is the very dictionary that was
    stored; [process_transaction] reads nothing of its argument but
    ['transaction_id'], which no one writes, so a task is kept here as the
    dictionary was when it was submitted. *)
Record system : Type := {
  TRANSACTIONS : store;
  work_queue : list transaction;
  threads : list (transaction * phase);
  logged : list log_entry
}.

(** What can happen next: a request reaches one of the three routes, a free
    pool thread takes the oldest queued task, or call [i] of
    [process_transaction] runs one of its two locked blocks ([Wake] carries
    what the sleep before the second block did). *)
Inductive event : Type :=
| Webhook (req : result pyval) (now : datetime)
| Query (transaction_id : string)
| Health (now : datetime)
| Start
| Check (i : nat)
| Wake (i : nat) (sleep : option exn) (now : datetime).

Definition is_busy (th : transaction * phase) : bool :=
  match th.2 with
  | Done _ => false
  | _ => true
  end.

Definition busy (ths : list (transaction * phase)) : nat :=
  length (List.filter is_busy ths).

Definition step (ev : event) (s : system) : option system :=
  match ev with
  | Webhook req now =>
      let '(_, T', submitted, l) := receive_webhook req now (TRANSACTIONS s) in
      Some {| TRANSACTIONS := T';
              work_queue := work_queue s ++ option_list submitted;
              threads := threads s;
              logged := logged s ++ l |}
  | Query _ | Health _ => Some s
  | Start =>
      match work_queue s with
      | td :: q =>
          if busy (threads s) <? max_workers
          then Some {| TRANSACTIONS := TRANSACTIONS s;
                       work_queue := q;
                       threads := threads s ++ [(td, AtCheck)];
                       logged := logged s |}
          else None
      | [] => None
      end
  | Check i =>
      match threads s !! i with
      | Some (td, AtCheck) =>
          let '(ph, l) := check_step td (TRANSACTIONS s) in
          Some {| TRANSACTIONS := TRANSACTIONS s;
                  work_queue := work_queue s;
                  threads := <[i := (td, ph)]> (threads s);
                  logged := logged s ++ l |}
      | _ => None
      end
  | Wake i sleep now =>
      match threads s !! i with
      | Some (td, AtSleep) =>
          let '(o, T', l) := wake_step td sleep now (TRANSACTIONS s) in
          Some {| TRANSACTIONS := T';
                  work_queue := work_queue s;
                  threads := <[i := (td, Done o)]> (threads s);
                  logged := logged s ++ l |}
      | _ => None
      end
  end.

(** A schedule, event by event; [None] when an event is not enabled. *)
Fixpoint run (evs : list event) (s : system) : option system :=
  match evs with
  | [] => Some s
  | ev :: evs' =>
      match step ev s with
      | Some s' => run evs' s'
      | None => None
      end
  end.

Definition boot (T0 : store) : system :=
  {| TRANSACTIONS := T0; work_queue := []; threads := []; logged := [] |}.

(** [TRANSACTIONS = {}] at import; the [__main__] block adds its record. *)
Inductive initial : store -> Prop :=
| initial_import : initial ∅
| initial_main now1 now2 : initial (main now1 now2).

Definition reachable (s : system) : Prop :=
  exists T0 evs, initial T0 /\ run evs (boot T0) = Some s.

(** ** Properties of records and stores *)




Definition processed_at_iff_processed (r : transaction) : Prop :=
  processed_at r <> None <-> status r = PROCESSED.

(** The fields a worker never writes. *)
Definition same_payload (r r' : transaction) : Prop :=
  transaction_id r' = transaction_id r /\
  source_account r' = source_account r /\
  destination_account r' = destination_account r /\
  amount r' = amount r /\
  currency r' = currency r /\
  created_at r' = created_at r.

(** Every task, queued or started, names a record of the store. *)
Definition task_registered (T : store) (td : transaction) : Prop :=
  exists k, hashable (transaction_id td) = Ok k /\ is_Some (T !! k).

Definition tasks_registered (s : system) : Prop :=
  Forall (task_registered (TRANSACTIONS s)) (work_queue s) /\
  Forall (fun th => task_registered (TRANSACTIONS s) th.1) (threads s).

(** The [transaction_data] that [receive_webhook] builds from the object
    [d] whose [transaction_id] is [txn_id]. *)
Definition new_transaction (txn_id : pyval) (d : list (string * pyval))
    (created_time : string) : transaction :=
  {| transaction_id := txn_id;
     source_account := dict_get "source_account" d;
     destination_account := dict_get "destination_account" d;
     amount := dict_get "amount" d;
     currency := dict_get "currency" d;
     status := PROCESSING;
     created_at := created_time;
     processed_at := None |}.

(** What the completion write makes of a record. *)
Definition completed (now : datetime) (r : transaction) : transaction :=
  set_processed_at (Some (get_utc_timestamp now)) (set_status PROCESSED r).

(** The three ways the store moves: not at all, a registration under a
    fresh key, a completion write on a stored record. *)
Inductive store_step : store -> store -> Prop :=
| store_same T : store_step T T
| store_register T k td now :
    T !! k = None ->
    hashable (transaction_id td) = Ok k ->
    status td = PROCESSING ->
    processed_at td = None ->
    created_at td = get_utc_timestamp now ->
    store_step T (<[k := td]> T)
| store_complete T k r now :
    T !! k = Some r ->
    store_step T (<[k := completed now r]> T).

(** ** Sample data *)

Definition noon : datetime :=
  {| year := 2024; month := 5; day := 17; hour := 12; minute := 0;
     second := 0; microsecond := 0 |}.

Definition later (us : nat) : datetime :=
  {| year := 2024; month := 5; day := 17; hour := 12; minute := 0;
     second := 30; microsecond := us |}.

Definition payload_t1 (amt : Z) : pyval :=
  PDict [("transaction_id", PStr "t1"); ("amount", PInt amt)].

Definition record_t1 (amt : Z) (st : txn_status) (done_at : option string)
  : transaction :=
  {| transaction_id := PStr "t1";
     source_account := PNone;
     destination_account := PNone;
     amount := PInt amt;
     currency := PNone;
     status := st;
     created_at := "2024-05-17T12:00:00Z";
     processed_at := done_at |}.

(** The state a schedule leads to from an empty store. *)
Definition after (evs : list event) : system :=
  default (boot ∅) (run evs (boot ∅)).

(** Two deliveries of the same id; the second task starts when the first
    is over. *)
Definition one_after_other : list event :=
  [ Webhook (Ok (payload_t1 10)) noon;
    Webhook (Ok (payload_t1 10)) noon;
    Start; Check 0; Wake 0 None (later 1); Start ].

(** Two deliveries of the same id, both tasks past their status check
    before either completes. *)
Definition two_overlapping : list event :=
  [ Webhook (Ok (payload_t1 10)) noon;
    Webhook (Ok (payload_t1 10)) noon;
    Start; Start; Check 0; Check 1;
    Wake 0 None (later 1) ].


(** ** Notions used by the further properties *)

(** A delivery whose object carries a [transaction_id] that hashes to [k]:
    the only kind of event that can put a record under [k]. *)
Definition delivers (k : pykey) (ev : event) : bool :=
  match ev with
  | Webhook (Ok (PDict d)) _ =>
      match dict_lookup "transaction_id" d with
      | Some txn_id =>
          match hashable txn_id with
          | Ok k' => bool_decide (k' = k)
          | Raise _ => false
          end
      | None => false
      end
  | _ => false
  end.

Definition is_webhook (ev : event) : bool :=
  match ev with
  | Webhook _ _ => true
  | _ => false
  end.


(** Every stored record carries the id it is stored under. *)
Definition keyed_by_id (T : store) : Prop :=
  map_Forall (fun k r => hashable (transaction_id r) = Ok k) T.

(** The requests whose handling raises inside the [try] block: a body Flask
    cannot read; a truthy number or [true] (no [in]); a string or array
    that contains ['transaction_id'] (no string subscript); an object whose
    [transaction_id] cannot be hashed. *)
Definition raises_internal (req : result pyval) : bool :=
  match req with
  | Raise _ => true
  | Ok data =>
      truthy data &&
      match data with
      | PDict d =>
          match dict_lookup "transaction_id" d with
          | Some txn_id =>
              match hashable txn_id with
              | Raise _ => true
              | Ok _ => false
              end
          | None => false
          end
      | PStr s => contains "transaction_id" s
      | PList l => existsb (is_str "transaction_id") l
      | PNone | PBool _ | PInt _ | PFloat _ => true
      end
  end.


(** A delivery whose task fails in its sleep. *)
Definition failed_once : list event :=
  [ Webhook (Ok (payload_t1 10)) noon; Start; Check 0;
    Wake 0 (Some (OtherError "OSError")) (later 1) ].

(** * Proofs *)

(** ** Timestamps *)

Section Timestamps.












End Timestamps.

(** ** The completion write *)

Section Worker.

Lemma completion_write_present txn_id k r now (T : store) :
  hashable txn_id = Ok k ->
  T !! k = Some r ->
  completion_write txn_id now T = (<[k := completed now r]> T, Ok tt).
Proof.
  intros Hk Hr. unfold completion_write, setitem_field.
  rewrite Hk, Hr, lookup_insert_eq, insert_insert_eq. reflexivity.
Qed.

Lemma completion_write_absent txn_id k now (T : store) :
  hashable txn_id = Ok k ->
  T !! k = None ->
  completion_write txn_id now T = (T, Raise KeyError).
Proof.
  intros Hk Hr. unfold completion_write, setitem_field.
  rewrite Hk, Hr. reflexivity.
Qed.

Lemma status_check_processed txn_id k r (T : store) :
  hashable txn_id = Ok k ->
  T !! k = Some r ->
  status r = PROCESSED ->
  status_check txn_id T = Ok true.
Proof.
  intros Hk Hr Hs. unfold status_check.
  rewrite Hk. simpl. rewrite Hr. simpl. rewrite Hs. reflexivity.
Qed.

Lemma check_step_processed td k r (T : store) :
  hashable (transaction_id td) = Ok k ->
  T !! k = Some r ->
  status r = PROCESSED ->
  check_step td T =
    (Done Returned, [(WARNING, IdempotencySkip (transaction_id td))]).
Proof.
  intros Hk Hr Hs. unfold check_step.
  rewrite (status_check_processed _ _ _ _ Hk Hr Hs). reflexivity.
Qed.

Lemma wake_step_store td sleep now (T : store) :
  store_step T (wake_step td sleep now T).1.2.
Proof.
  unfold wake_step. destruct sleep as [e|]; [apply store_same|].
  destruct (hashable (transaction_id td)) as [k|e] eqn:Hk.
  - destruct (T !! k) as [r|] eqn:Hr.
    + rewrite (completion_write_present _ _ _ _ _ Hk Hr).
      apply store_complete, Hr.
    + rewrite (completion_write_absent _ _ _ _ Hk Hr). apply store_same.
  - unfold completion_write. rewrite Hk. apply store_same.
Qed.

End Worker.

(** ** The ingestion handler *)

Section Ingestion.

(** An object with the key [transaction_id] goes through, whatever the
    value under the key, as long as it can be hashed. *)
Lemma receive_webhook_dict d txn_id k now (T : store) :
  dict_lookup "transaction_id" d = Some txn_id ->
  hashable txn_id = Ok k ->
  receive_webhook (Ok (PDict d)) now T =
    let td := new_transaction txn_id d (get_utc_timestamp now) in
    match T !! k with
    | None => (accepted txn_id, <[k := td]> T, Some td,
               [(INFO, WebhookReceived txn_id)])
    | Some _ => (accepted txn_id, T, Some td,
                 [(INFO, DuplicateWebhook txn_id)])
    end.
Proof.
  intros Hid Hk. unfold receive_webhook, webhook_try, bind.
  assert (truthy (PDict d) = true) as -> by (destruct d; [discriminate Hid|reflexivity]).
  cbn [negb py_in py_getitem py_get]. rewrite Hid.
  rewrite bool_decide_eq_true_2 by eauto. cbn [negb]. rewrite Hk.
  destruct (T !! k); reflexivity.
Qed.

Lemma receive_webhook_unhashable d txn_id e now (T : store) :
  dict_lookup "transaction_id" d = Some txn_id ->
  hashable txn_id = Raise e ->
  receive_webhook (Ok (PDict d)) now T =
    (internal_error, T, None, [(ERROR, ErrorProcessingWebhook e)]).
Proof.
  intros Hid Hk. unfold receive_webhook, webhook_try, bind.
  assert (truthy (PDict d) = true) as -> by (destruct d; [discriminate Hid|reflexivity]).
  cbn [negb py_in py_getitem py_get]. rewrite Hid.
  rewrite bool_decide_eq_true_2 by eauto. cbn [negb]. rewrite Hk.
  reflexivity.
Qed.

Lemma receive_webhook_no_key d now (T : store) :
  dict_lookup "transaction_id" d = None ->
  receive_webhook (Ok (PDict d)) now T = (invalid_payload, T, None, []).
Proof.
  intros Hid. unfold receive_webhook, webhook_try, bind.
  destruct d as [|kv d]; [reflexivity|].
  cbn [truthy negb py_in]. rewrite Hid.
  rewrite bool_decide_eq_false_2 by (intros [? ?]; discriminate).
  reflexivity.
Qed.

(** A body that is not an object is never registered. *)
Lemma receive_webhook_not_dict req now (T : store) :
  (forall d, req <> Ok (PDict d)) ->
  exists resp l,
    receive_webhook req now T = (resp, T, None, l) /\
    (resp = invalid_payload /\ l = [] \/ resp = internal_error).
Proof.
  intros Hnd. unfold receive_webhook, webhook_try, bind.
  destruct req as [data|e]; [|eauto 7].
  destruct data as [|b|z|f|s|l|d]; cbn [truthy negb py_in py_getitem].
  - eauto 7.
  - destruct b; cbn [negb]; eauto 7.
  - destruct (z =? 0)%Z; cbn [negb]; eauto 7.
  - destruct f; cbn [negb]; eauto 7.
  - destruct (String.eqb s ""); cbn [negb]; [eauto 7|].
    destruct (contains "transaction_id" s); cbn [negb]; eauto 7.
  - destruct l as [|v l]; cbn [negb]; [eauto 7|].
    destruct (existsb (is_str "transaction_id") (v :: l)); cbn [negb]; eauto 7.
  - destruct (Hnd d eq_refl).
Qed.

(** The two outcomes of a delivery, as far as the store and the executor
    are concerned. *)
Lemma receive_webhook_cases req now (T : store) :
  (exists resp l,
      receive_webhook req now T = (resp, T, None, l) /\
      (resp = invalid_payload /\ l = [] \/ resp = internal_error)) \/
  (exists d txn_id k T' l,
      req = Ok (PDict d) /\
      dict_lookup "transaction_id" d = Some txn_id /\
      hashable txn_id = Ok k /\
      receive_webhook req now T =
        (accepted txn_id, T',
         Some (new_transaction txn_id d (get_utc_timestamp now)), l) /\
      (T !! k = None /\
       T' = <[k := new_transaction txn_id d (get_utc_timestamp now)]> T \/
       is_Some (T !! k) /\ T' = T)).
Proof.
  destruct req as [data|e].
  2:{ left. apply receive_webhook_not_dict. discriminate. }
  destruct data as [| | | | | |d];
    try (left; apply receive_webhook_not_dict; discriminate).
  destruct (dict_lookup "transaction_id" d) as [txn_id|] eqn:Hid.
  - destruct (hashable txn_id) as [k|e] eqn:Hk.
    + right. exists d, txn_id, k.
      rewrite (receive_webhook_dict _ _ _ now T Hid Hk). cbn zeta.
      destruct (T !! k) as [r|] eqn:Hr; eauto 10.
    + left. rewrite (receive_webhook_unhashable _ _ _ now T Hid Hk). eauto 7.
  - left. rewrite (receive_webhook_no_key _ now T Hid). eauto 7.
Qed.

Lemma receive_webhook_store req now (T : store) :
  store_step T (receive_webhook req now T).1.1.2.
Proof.
  destruct (receive_webhook_cases req now T)
    as [(resp & l & -> & _)|(d & id & k & T' & l & _ & _ & Hk & -> & HT)].
  - apply store_same.
  - destruct HT as [[Hnone ->]|[_ ->]]; [|apply store_same].
    eapply store_register; eauto.
Qed.

End Ingestion.

(** ** How the store evolves *)

Section Evolution.

Lemma same_payload_completed now r : same_payload r (completed now r).
Proof. repeat split. Qed.

(** A record, once stored, stays; its payload and [created_at] never
    change, and [PROCESSED] is never left. *)
Lemma store_step_lookup (T T' : store) k r :
  store_step T T' ->
  T !! k = Some r ->
  exists r', T' !! k = Some r' /\ same_payload r r' /\
             (status r = PROCESSED -> status r' = PROCESSED).
Proof.
  intros Hstep Hr. destruct Hstep as [T|T k' td now Hnone|T k' r0 now Hr0].
  - exists r. repeat split; auto.
  - exists r. rewrite lookup_insert_ne by congruence. repeat split; auto.
  - destruct (decide (k' = k)) as [->|Hne].
    + rewrite lookup_insert_eq. assert (r0 = r) as -> by congruence.
      exists (completed now r). repeat split; auto.
    + exists r. rewrite lookup_insert_ne by done. repeat split; auto.
Qed.

Lemma step_store_step ev s s' :
  step ev s = Some s' -> store_step (TRANSACTIONS s) (TRANSACTIONS s').
Proof.
  destruct ev as [req now|id|now| |i|i sleep now]; cbn [step]; intros Hstep.
  - pose proof (receive_webhook_store req now (TRANSACTIONS s)) as H.
    destruct (receive_webhook req now (TRANSACTIONS s)) as [[[resp T'] sub] l].
    injection Hstep as <-. exact H.
  - injection Hstep as <-. apply store_same.
  - injection Hstep as <-. apply store_same.
  - destruct (work_queue s); [discriminate|].
    destruct (busy (threads s) <? max_workers); [|discriminate].
    injection Hstep as <-. apply store_same.
  - destruct (threads s !! i) as [[td []]|]; try discriminate.
    destruct (check_step td (TRANSACTIONS s)) as [ph l].
    injection Hstep as <-. apply store_same.
  - destruct (threads s !! i) as [[td []]|]; try discriminate.
    pose proof (wake_step_store td sleep now (TRANSACTIONS s)) as H.
    destruct (wake_step td sleep now (TRANSACTIONS s)) as [[o T'] l].
    injection Hstep as <-. exact H.
Qed.

(** Induction over a schedule. *)
Lemma run_invariant (I : system -> Prop) :
  (forall ev s s', step ev s = Some s' -> I s -> I s') ->
  forall evs s s', run evs s = Some s' -> I s -> I s'.
Proof.
  intros Hstep evs. induction evs as [|ev evs IH]; intros s s' Hrun Hs.
  - injection Hrun as <-. exact Hs.
  - cbn [run] in Hrun. destruct (step ev s) as [s1|] eqn:H1; [|discriminate].
    eapply IH; eauto.
Qed.

Lemma run_app evs1 evs2 s :
  run (evs1 ++ evs2) s =
    match run evs1 s with
    | Some s1 => run evs2 s1
    | None => None
    end.
Proof.
  revert s. induction evs1 as [|ev evs1 IH]; intros s; [reflexivity|].
  cbn [run app]. destruct (step ev s); [apply IH|reflexivity].
Qed.

Lemma run_lookup evs s s' k r :
  run evs s = Some s' ->
  TRANSACTIONS s !! k = Some r ->
  exists r', TRANSACTIONS s' !! k = Some r' /\ same_payload r r' /\
             (status r = PROCESSED -> status r' = PROCESSED).
Proof.
  intros Hrun Hr.
  refine (run_invariant
            (fun s1 => exists r', TRANSACTIONS s1 !! k = Some r' /\
                                  same_payload r r' /\
                                  (status r = PROCESSED -> status r' = PROCESSED))
            _ evs s s' Hrun _).
  - intros ev s1 s2 Hstep (r1 & Hr1 & Hsame & Hst).
    destruct (store_step_lookup _ _ k r1 (step_store_step _ _ _ Hstep) Hr1)
      as (r2 & Hr2 & Hsame2 & Hst2).
    exists r2. split; [exact Hr2|]. split; [|auto].
    unfold same_payload in *. intuition congruence.
  - exists r. repeat split; auto.
Qed.

End Evolution.

(** ** Properties of every stored record *)

Section RecordInvariant.

(** A property that the seed record has, that a freshly registered
    record has, and that the completion write keeps. *)
Variable P : transaction -> Prop.
Hypothesis P_seed : forall now1 now2, P (txn_test_ready now1 now2).
Hypothesis P_new :
  forall td now,
    status td = PROCESSING -> processed_at td = None ->
    created_at td = get_utc_timestamp now -> P td.
Hypothesis P_completed : forall now r, P r -> P (completed now r).

Lemma store_step_forall (T T' : store) :
  store_step T T' ->
  map_Forall (fun _ => P) T ->
  map_Forall (fun _ => P) T'.
Proof.
  intros Hstep HT.
  destruct Hstep as [T|T k td now Hnone Hk Hs Hp Hc|T k r now Hr].
  - exact HT.
  - apply map_Forall_insert_2; eauto.
  - apply map_Forall_insert_2; [|exact HT].
    apply P_completed. exact (HT k r Hr).
Qed.

Lemma run_forall evs s s' :
  run evs s = Some s' ->
  map_Forall (fun _ => P) (TRANSACTIONS s) ->
  map_Forall (fun _ => P) (TRANSACTIONS s').
Proof.
  apply (run_invariant (fun s1 => map_Forall (fun _ => P) (TRANSACTIONS s1))).
  intros ev s1 s2 Hstep. eapply store_step_forall, step_store_step, Hstep.
Qed.

Lemma initial_forall T0 : initial T0 -> map_Forall (fun _ => P) T0.
Proof.
  intros [|now1 now2].
  - apply map_Forall_empty.
  - apply map_Forall_insert_2; [apply P_seed|apply map_Forall_empty].
Qed.

(** It holds of every record the service ever stores. *)
Lemma reachable_forall s k r :
  reachable s -> TRANSACTIONS s !! k = Some r -> P r.
Proof.
  intros (T0 & evs & Hinit & Hrun) Hr.
  exact (run_forall evs (boot T0) s Hrun (initial_forall T0 Hinit) k r Hr).
Qed.

End RecordInvariant.

(** ** Tasks always name a stored record *)

Section Tasks.

Lemma task_registered_step (T T' : store) td :
  store_step T T' -> task_registered T td -> task_registered T' td.
Proof.
  intros Hstep (k & Hk & [r Hr]).
  destruct (store_step_lookup _ _ k r Hstep Hr) as (r' & Hr' & _).
  exists k. eauto.
Qed.

Lemma tasks_registered_store (T' : store) s :
  store_step (TRANSACTIONS s) T' ->
  tasks_registered s ->
  Forall (task_registered T') (work_queue s) /\
  Forall (fun th => task_registered T' th.1) (threads s).
Proof.
  intros Hstep [Hq Ht]. split.
  - eapply Forall_impl; [exact Hq|]. intros td. apply task_registered_step, Hstep.
  - eapply Forall_impl; [exact Ht|]. intros th. apply task_registered_step, Hstep.
Qed.

Lemma receive_webhook_task req now (T : store) td :
  (receive_webhook req now T).1.2 = Some td ->
  task_registered (receive_webhook req now T).1.1.2 td.
Proof.
  destruct (receive_webhook_cases req now T)
    as [(resp & l & -> & _)|(d & id & k & T' & l & _ & _ & Hk & -> & HT)];
    cbn [fst snd]; intros Hsub; [discriminate|].
  injection Hsub as <-. exists k. split; [exact Hk|].
  destruct HT as [[_ ->]|[Hsome ->]]; [|exact Hsome].
  rewrite lookup_insert_eq. eauto.
Qed.

Lemma tasks_registered_step_inv ev s s' :
  step ev s = Some s' -> tasks_registered s -> tasks_registered s'.
Proof.
  intros Hstep Hinv.
  pose proof (step_store_step _ _ _ Hstep) as HT.
  destruct (tasks_registered_store _ _ HT Hinv) as [Hq Ht].
  destruct ev as [req now|id|now| |i|i sleep now]; cbn [step] in Hstep.
  - pose proof (receive_webhook_task req now (TRANSACTIONS s)) as Hsub.
    destruct (receive_webhook req now (TRANSACTIONS s)) as [[[resp T'] sub] l].
    injection Hstep as <-. cbn [TRANSACTIONS fst snd] in *.
    split; [|exact Ht]. cbn [work_queue]. apply Forall_app. split; [exact Hq|].
    destruct sub as [td|]; [|constructor].
    repeat constructor. apply Hsub. reflexivity.
  - injection Hstep as <-. exact Hinv.
  - injection Hstep as <-. exact Hinv.
  - destruct (work_queue s) as [|td q] eqn:Hwq; [discriminate|].
    destruct (busy (threads s) <? max_workers); [|discriminate].
    injection Hstep as <-. cbn [TRANSACTIONS] in *.
    apply Forall_cons in Hq as [Htd Hq]. split; [exact Hq|].
    cbn [threads]. apply Forall_app. split; [exact Ht|].
    repeat constructor. exact Htd.
  - destruct (threads s !! i) as [[td ph]|] eqn:Hi; [|discriminate].
    destruct ph; try discriminate.
    destruct (check_step td (TRANSACTIONS s)) as [ph l].
    injection Hstep as <-. cbn [TRANSACTIONS] in *.
    split; [exact Hq|]. cbn [threads]. apply Forall_insert; [exact Ht|].
    exact (proj1 (Forall_lookup _ _) Ht i _ Hi).
  - destruct (threads s !! i) as [[td ph]|] eqn:Hi; [|discriminate].
    destruct ph; try discriminate.
    destruct (wake_step td sleep now (TRANSACTIONS s)) as [[o T'] l].
    injection Hstep as <-. cbn [TRANSACTIONS] in *.
    split; [exact Hq|]. cbn [threads]. apply Forall_insert; [exact Ht|].
    exact (proj1 (Forall_lookup _ _) Ht i _ Hi).
Qed.

Lemma reachable_tasks_registered s : reachable s -> tasks_registered s.
Proof.
  intros (T0 & evs & _ & Hrun).
  refine (run_invariant tasks_registered tasks_registered_step_inv
            evs (boot T0) s Hrun _).
  split; constructor.
Qed.

End Tasks.

(** * The claims *)



Lemma after_reachable evs s : run evs (boot ∅) = Some s -> reachable s.
Proof. intros H. exists ∅, evs. split; [constructor|exact H]. Qed.


(** C7. After every operation of the service (a webhook delivery, a query,
    a health probe, a task start, a status check, a completion or a failed
    sleep), every stored record has [processed_at] set if and only if its
    status is [PROCESSED]. *)
Theorem processed_at_set_iff_processed s k r :
  reachable s ->
  TRANSACTIONS s !! k = Some r ->
  processed_at_iff_processed r.
Proof.
  apply (reachable_forall processed_at_iff_processed).
  - intros now1 now2. split; [reflexivity|discriminate].
  - intros td now Hs Hp _. unfold processed_at_iff_processed.
    rewrite Hs, Hp. split; [congruence|discriminate].
  - intros now r0 _. split; [reflexivity|discriminate].
Qed.

Lemma processed_at_set_iff_processed_witness :
  reachable (after two_overlapping) /\
  TRANSACTIONS (after two_overlapping) !! KStr "t1" =
    Some (record_t1 10 PROCESSED (Some "2024-05-17T12:00:30.000001Z")) /\
  processed_at_iff_processed
    (record_t1 10 PROCESSED (Some "2024-05-17T12:00:30.000001Z")).
Proof.
  assert (reachable (after two_overlapping)) as Hreach
    by (apply (after_reachable two_overlapping); vm_compute; reflexivity).
  assert (TRANSACTIONS (after two_overlapping) !! KStr "t1" =
            Some (record_t1 10 PROCESSED (Some "2024-05-17T12:00:30.000001Z")))
    as Hr by (vm_compute; reflexivity).
  split; [exact Hreach|]. split; [exact Hr|].
  exact (processed_at_set_iff_processed _ _ _ Hreach Hr).
Defined.

(** C10. Run as a script, the service starts with a store that is not
    empty: it holds the record [txn_test_ready], status [PROCESSED] and
    [processed_at] set, and a status query for that id answers 200 with the
    record although no webhook was delivered. *)
Theorem main_seeds_txn_test_ready now1 now2 :
  TRANSACTIONS (boot (main now1 now2)) <> ∅ /\
  logged (boot (main now1 now2)) = [] /\
  get_transaction_status "txn_test_ready" (TRANSACTIONS (boot (main now1 now2))) =
    {| http_status := 200; body := BodyRecord (txn_test_ready now1 now2) |} /\
  status (txn_test_ready now1 now2) = PROCESSED /\
  processed_at (txn_test_ready now1 now2) = Some (get_utc_timestamp now2).
Proof.
  split; [|split; [|split; [|split]]]; [|reflexivity| |reflexivity..].
  - cbn [boot TRANSACTIONS main]. apply insert_non_empty.
  - unfold get_transaction_status, main, boot. cbn [TRANSACTIONS].
    rewrite lookup_insert_eq. reflexivity.
Qed.

(** C6. For a record whose status is [PROCESSED], [process_transaction]
    returns right after the status check: it logs the skip, never reaches
    the sleep, and leaves the store as it was; so running it twice in a row
    leaves the same store as running it once. *)
Theorem processed_record_is_skipped td k r sleep now (T : store) :
  hashable (transaction_id td) = Ok k ->
  T !! k = Some r ->
  status r = PROCESSED ->
  check_step td T =
    (Done Returned, [(WARNING, IdempotencySkip (transaction_id td))]) /\
  process_transaction td sleep now T =
    (Returned, T, [(WARNING, IdempotencySkip (transaction_id td))]) /\
  forall sleep' now',
    (process_transaction td sleep' now'
       (process_transaction td sleep now T).1.2).1.2 =
    (process_transaction td sleep now T).1.2.
Proof.
  intros Hk Hr Hs.
  pose proof (check_step_processed td k r T Hk Hr Hs) as Hc.
  assert (forall sl nw, process_transaction td sl nw T =
            (Returned, T, [(WARNING, IdempotencySkip (transaction_id td))]))
    as Hp by (intros; unfold process_transaction; rewrite Hc; reflexivity).
  split; [exact Hc|]. split; [apply Hp|].
  intros sleep' now'. rewrite (Hp sleep now). cbn [fst snd].
  rewrite (Hp sleep' now'). reflexivity.
Qed.

Lemma processed_record_is_skipped_witness :
  let td := txn_test_ready noon noon in
  let T := main noon noon in
  hashable (transaction_id td) = Ok (KStr "txn_test_ready") /\
  T !! KStr "txn_test_ready" = Some td /\
  status td = PROCESSED /\
  process_transaction td None (later 1) T =
    (Returned, T, [(WARNING, IdempotencySkip (PStr "txn_test_ready"))]).
Proof.
  intros td T.
  assert (T !! KStr "txn_test_ready" = Some td) as Hr by apply lookup_insert_eq.
  split; [reflexivity|]. split; [exact Hr|]. split; [reflexivity|].
  exact (proj1 (proj2 (processed_record_is_skipped
                         td (KStr "txn_test_ready") td None (later 1) T
                         eq_refl Hr eq_refl))).
Defined.

(** C9. Two snapshots with the same [transaction_id] make the worker do the
    same thing, whatever their other fields: the status check, the
    completion and a whole call agree on outcome, store and log. *)
Theorem worker_reads_only_transaction_id td1 td2 sleep now (T : store) :
  transaction_id td1 = transaction_id td2 ->
  check_step td1 T = check_step td2 T /\
  wake_step td1 sleep now T = wake_step td2 sleep now T /\
  process_transaction td1 sleep now T = process_transaction td2 sleep now T.
Proof.
  intros Hid.
  assert (check_step td1 T = check_step td2 T) as Hc
    by (unfold check_step; rewrite Hid; reflexivity).
  assert (wake_step td1 sleep now T = wake_step td2 sleep now T) as Hw
    by (unfold wake_step; rewrite Hid; reflexivity).
  split; [exact Hc|]. split; [exact Hw|].
  unfold process_transaction. rewrite Hc, Hw. reflexivity.
Qed.

Lemma worker_reads_only_transaction_id_witness :
  let T : store := <[KStr "t1" := record_t1 10 PROCESSING None]> ∅ in
  transaction_id (record_t1 10 PROCESSING None) =
    transaction_id (new_transaction (PStr "t1")
                      [("source_account", PStr "acc_a"); ("amount", PInt 7);
                       ("currency", PStr "EUR")] "2024-05-17T12:00:05Z") /\
  process_transaction (record_t1 10 PROCESSING None) None (later 1) T =
    process_transaction
      (new_transaction (PStr "t1")
         [("source_account", PStr "acc_a"); ("amount", PInt 7);
          ("currency", PStr "EUR")] "2024-05-17T12:00:05Z")
      None (later 1) T.
Proof.
  intros T. split; [reflexivity|].
  exact (proj2 (proj2 (worker_reads_only_transaction_id
                         (record_t1 10 PROCESSING None) _ None (later 1) T
                         eq_refl))).
Defined.

(** C5. A delivery for an id that is already stored changes nothing in the
    store.  So from the first delivery of an id on, whatever is delivered
    or processed afterwards, a status query answers 200 with a record whose
    [transaction_id], [source_account], [destination_account], [amount],
    [currency] and [created_at] are those of the first delivery. *)
Theorem duplicate_delivery_keeps_first_record :
  (forall d txn_id k r now (T : store),
      dict_lookup "transaction_id" d = Some txn_id ->
      hashable txn_id = Ok k ->
      T !! k = Some r ->
      (receive_webhook (Ok (PDict d)) now T).1.1.2 = T) /\
  (forall d id now s s1 evs s',
      dict_lookup "transaction_id" d = Some (PStr id) ->
      TRANSACTIONS s !! KStr id = None ->
      step (Webhook (Ok (PDict d)) now) s = Some s1 ->
      run evs s1 = Some s' ->
      exists r,
        get_transaction_status id (TRANSACTIONS s') =
          {| http_status := 200; body := BodyRecord r |} /\
        same_payload (new_transaction (PStr id) d (get_utc_timestamp now)) r).
Proof.
  split.
  - intros d txn_id k r now T Hid Hk Hr.
    rewrite (receive_webhook_dict d txn_id k now T Hid Hk). cbn zeta.
    rewrite Hr. reflexivity.
  - intros d id now s s1 evs s' Hid Hnone Hstep Hrun.
    cbn [step] in Hstep.
    rewrite (receive_webhook_dict d (PStr id) (KStr id) now _ Hid eq_refl) in Hstep.
    cbn zeta in Hstep. rewrite Hnone in Hstep. injection Hstep as <-.
    destruct (run_lookup evs _ s' (KStr id)
                (new_transaction (PStr id) d (get_utc_timestamp now)) Hrun)
      as (r & Hr & Hsame & _).
    { cbn [TRANSACTIONS]. apply lookup_insert_eq. }
    exists r. split; [|exact Hsame].
    unfold get_transaction_status. rewrite Hr. reflexivity.
Qed.

(** A first delivery, a duplicate with another amount, then both tasks. *)
Lemma duplicate_delivery_keeps_first_record_witness :
  let d := [("transaction_id", PStr "t1"); ("amount", PInt 10)] in
  let evs := [ Webhook (Ok (payload_t1 99)) (later 0);
               Start; Start; Check 0; Wake 0 None (later 1); Check 1 ] in
  let T : store := <[KStr "t1" := record_t1 10 PROCESSING None]> ∅ in
  (dict_lookup "transaction_id" [("transaction_id", PStr "t1"); ("amount", PInt 99)]
     = Some (PStr "t1") /\
   T !! KStr "t1" = Some (record_t1 10 PROCESSING None) /\
   (receive_webhook (Ok (payload_t1 99)) (later 0) T).1.1.2 = T) /\
  (dict_lookup "transaction_id" d = Some (PStr "t1") /\
   TRANSACTIONS (boot ∅) !! KStr "t1" = None /\
   step (Webhook (Ok (PDict d)) noon) (boot ∅) =
     Some (after [Webhook (Ok (PDict d)) noon]) /\
   run evs (after [Webhook (Ok (PDict d)) noon]) =
     Some (after (Webhook (Ok (PDict d)) noon :: evs)) /\
   exists r,
     get_transaction_status "t1"
       (TRANSACTIONS (after (Webhook (Ok (PDict d)) noon :: evs))) =
       {| http_status := 200; body := BodyRecord r |} /\
     same_payload (new_transaction (PStr "t1") d (get_utc_timestamp noon)) r).
Proof.
  intros d evs T.
  assert (T !! KStr "t1" = Some (record_t1 10 PROCESSING None)) as Hr
    by apply lookup_insert_eq.
  assert (step (Webhook (Ok (PDict d)) noon) (boot ∅) =
            Some (after [Webhook (Ok (PDict d)) noon])) as Hstep
    by (vm_compute; reflexivity).
  assert (run evs (after [Webhook (Ok (PDict d)) noon]) =
            Some (after (Webhook (Ok (PDict d)) noon :: evs))) as Hrun
    by (vm_compute; reflexivity).
  destruct duplicate_delivery_keeps_first_record as (Hdup & Hfirst).
  split.
  - split; [reflexivity|]. split; [exact Hr|].
    exact (Hdup [("transaction_id", PStr "t1"); ("amount", PInt 99)]
             (PStr "t1") (KStr "t1") _ (later 0) T eq_refl eq_refl Hr).
  - split; [reflexivity|]. split; [reflexivity|].
    split; [exact Hstep|]. split; [exact Hrun|].
    exact (Hfirst d "t1" noon (boot ∅) _ evs _ eq_refl eq_refl Hstep Hrun).
Defined.

(** C2, as the handler behaves.  For a body that deserializes to an object
    the 400 answer is given exactly when the key [transaction_id] is
    missing; what is stored under the key is not looked at.  Every falsy
    body ([null], [false], [0], [""], [[]], [{}]) gets the 400 answer too.
    Whenever the answer is 400 it is [{"error": "Invalid payload"}], the
    store is unchanged and no task is submitted. *)
Theorem invalid_payload_iff_key_missing :
  (forall d now (T : store),
      http_status (receive_webhook (Ok (PDict d)) now T).1.1.1 = 400 <->
      dict_lookup "transaction_id" d = None) /\
  (forall data now (T : store),
      truthy data = false ->
      receive_webhook (Ok data) now T = (invalid_payload, T, None, [])) /\
  (forall req now (T : store),
      http_status (receive_webhook req now T).1.1.1 = 400 ->
      receive_webhook req now T = (invalid_payload, T, None, []) /\
      forall d, req = Ok (PDict d) -> dict_lookup "transaction_id" d = None).
Proof.
  split; [|split].
  - intros d now T. split.
    + destruct (dict_lookup "transaction_id" d) as [txn_id|] eqn:Hid; [|reflexivity].
      destruct (hashable txn_id) as [k|e] eqn:Hk.
      * rewrite (receive_webhook_dict d txn_id k now T Hid Hk). cbn zeta.
        destruct (T !! k); discriminate.
      * rewrite (receive_webhook_unhashable d txn_id e now T Hid Hk). discriminate.
    + intros Hid. rewrite (receive_webhook_no_key d now T Hid). reflexivity.
  - intros data now T Hfalse. unfold receive_webhook, webhook_try, bind.
    rewrite Hfalse. reflexivity.
  - intros req now T H400.
    destruct (receive_webhook_cases req now T)
      as [(resp & l & Heq & [[-> ->]| ->])|(d & id & k & T' & l & _ & _ & _ & Heq & _)];
      rewrite Heq in H400; try discriminate H400.
    split; [exact Heq|]. intros d ->.
    destruct (dict_lookup "transaction_id" d) as [txn_id|] eqn:Hid; [|reflexivity].
    destruct (hashable txn_id) as [k|e] eqn:Hk.
    + rewrite (receive_webhook_dict d txn_id k now T Hid Hk) in Heq. cbn zeta in Heq.
      destruct (T !! k); discriminate Heq.
    + rewrite (receive_webhook_unhashable d txn_id e now T Hid Hk) in Heq.
      discriminate Heq.
Qed.

Lemma invalid_payload_iff_key_missing_witness :
  let req := Ok (PDict [("amount", PInt 10)]) in
  (truthy PNone = false /\
   receive_webhook (Ok PNone) noon (main noon noon) =
     (invalid_payload, main noon noon, None, [])) /\
  (http_status (receive_webhook req noon (main noon noon)).1.1.1 = 400 /\
   receive_webhook req noon (main noon noon) =
     (invalid_payload, main noon noon, None, [])).
Proof.
  intros req.
  assert (http_status (receive_webhook req noon (main noon noon)).1.1.1 = 400)
    as H400 by reflexivity.
  destruct invalid_payload_iff_key_missing as (_ & Hfalsy & Hunchanged).
  split.
  - split; [reflexivity|]. exact (Hfalsy PNone noon (main noon noon) eq_refl).
  - split; [exact H400|].
    exact (proj1 (Hunchanged req noon (main noon noon) H400)).
Defined.

(** C2 as stated fails: an object whose [transaction_id] is the empty
    string is answered 202 and a record is stored under the empty key. *)
Lemma empty_transaction_id_is_accepted :
  let d := [("transaction_id", PStr "")] in
  receive_webhook (Ok (PDict d)) noon ∅ =
    (accepted (PStr ""),
     <[KStr "" := new_transaction (PStr "") d "2024-05-17T12:00:00Z"]> ∅,
     Some (new_transaction (PStr "") d "2024-05-17T12:00:00Z"),
     [(INFO, WebhookReceived (PStr ""))]) /\
  http_status (accepted (PStr "")) = 202 /\
  dict_lookup "transaction_id" d = Some (PStr "") /\
  truthy (PStr "") = false.
Proof. vm_compute. repeat split. Qed.

(** C3, as the worker behaves.  When the sleep raises, nothing catches or
    logs the exception: it leaves [process_transaction], the completion
    write is not run and the store is exactly as it was, so the record
    stays [PROCESSING]. *)
Theorem sleep_exception_escapes td e now (T : store) :
  status_check (transaction_id td) T = Ok false ->
  wake_step td (Some e) now T = (Raised e, T, []) /\
  process_transaction td (Some e) now T =
    (Raised e, T, [(INFO, StartingProcessing (transaction_id td))]).
Proof.
  intros Hc. split; [reflexivity|].
  unfold process_transaction, check_step. rewrite Hc. reflexivity.
Qed.

Lemma sleep_exception_escapes_witness :
  let td := record_t1 10 PROCESSING None in
  let T : store := <[KStr "t1" := td]> ∅ in
  status_check (transaction_id td) T = Ok false /\
  process_transaction td (Some (OtherError "OSError")) (later 1) T =
    (Raised (OtherError "OSError"), T, [(INFO, StartingProcessing (PStr "t1"))]).
Proof.
  intros td T.
  assert (status_check (transaction_id td) T = Ok false) as Hc
    by (vm_compute; reflexivity).
  split; [exact Hc|].
  exact (proj2 (sleep_exception_escapes td (OtherError "OSError") (later 1) T Hc)).
Defined.

(** C3 as stated fails: the call does not return, it raises, and the only
    log line is the one written before the sleep. *)
Lemma sleep_exception_is_not_caught :
  let td := record_t1 10 PROCESSING None in
  let T : store := <[KStr "t1" := td]> ∅ in
  process_transaction td (Some (OtherError "OSError")) (later 1) T =
    (Raised (OtherError "OSError"), T, [(INFO, StartingProcessing (PStr "t1"))]) /\
  (process_transaction td (Some (OtherError "OSError")) (later 1) T).1.1
    <> Returned.
Proof. split; [vm_compute; reflexivity|vm_compute; discriminate]. Qed.

(** C4, as the worker behaves.  When no record is stored under the id, the
    completion write raises [KeyError] before writing anything; the
    exception leaves [process_transaction] and the store is unchanged.
    A task handed over by [receive_webhook] never gets there: its record is
    stored before the task is submitted and records are never removed. *)
Theorem completion_of_missing_record_raises :
  (forall td k now (T : store),
      hashable (transaction_id td) = Ok k ->
      T !! k = None ->
      completion_write (transaction_id td) now T = (T, Raise KeyError) /\
      wake_step td None now T = (Raised KeyError, T, []) /\
      process_transaction td None now T =
        (Raised KeyError, T, [(INFO, StartingProcessing (transaction_id td))])) /\
  (forall s i td ph,
      reachable s ->
      threads s !! i = Some (td, ph) ->
      task_registered (TRANSACTIONS s) td).
Proof.
  split.
  - intros td k now T Hk Hnone.
    pose proof (completion_write_absent _ k now T Hk Hnone) as Hw.
    split; [exact Hw|].
    assert (wake_step td None now T = (Raised KeyError, T, [])) as Hwake
      by (unfold wake_step; rewrite Hw; reflexivity).
    split; [exact Hwake|].
    unfold process_transaction, check_step, status_check.
    rewrite Hk. cbn [bind]. rewrite Hnone, Hwake. reflexivity.
  - intros s i td ph Hreach Hi.
    destruct (reachable_tasks_registered s Hreach) as [_ Ht].
    exact (proj1 (Forall_lookup _ _) Ht i _ Hi).
Qed.

Lemma completion_of_missing_record_raises_witness :
  let td := record_t1 10 PROCESSING None in
  (hashable (transaction_id td) = Ok (KStr "t1") /\
   (∅ : store) !! KStr "t1" = None /\
   completion_write (transaction_id td) (later 1) ∅ = (∅, Raise KeyError)) /\
  (reachable (after two_overlapping) /\
   threads (after two_overlapping) !! 1 = Some (td, AtSleep) /\
   task_registered (TRANSACTIONS (after two_overlapping)) td).
Proof.
  intros td.
  assert (reachable (after two_overlapping)) as Hreach
    by (apply (after_reachable two_overlapping); vm_compute; reflexivity).
  assert (threads (after two_overlapping) !! 1 = Some (td, AtSleep)) as Hi
    by (vm_compute; reflexivity).
  destruct completion_of_missing_record_raises as (Hraise & Hreg).
  split.
  - split; [reflexivity|]. split; [reflexivity|].
    exact (proj1 (Hraise td (KStr "t1") (later 1) ∅ eq_refl eq_refl)).
  - split; [exact Hreach|]. split; [exact Hi|].
    exact (Hreg _ 1 td AtSleep Hreach Hi).
Defined.

(** C4 as stated fails: with no record under the id the completion step is
    not a silent no-op, the call ends with [KeyError]. *)
Lemma completion_without_record_fails :
  let td := record_t1 10 PROCESSING None in
  completion_write (PStr "t1") (later 1) ∅ = (∅, Raise KeyError) /\
  process_transaction td None (later 1) ∅ =
    (Raised KeyError, ∅, [(INFO, StartingProcessing (PStr "t1"))]) /\
  (process_transaction td None (later 1) ∅).1.1 <> Returned.
Proof. split; [|split]; [vm_compute; reflexivity..|vm_compute; discriminate]. Qed.

(** C1, as the service behaves.  Once a record is [PROCESSED] it stays so,
    and every call whose status check runs from then on takes the skip
    path and leaves the store alone.  The completion write itself does not
    look at the status: a call that passed its status check earlier still
    writes, setting [PROCESSED] again and putting its own timestamp in
    [processed_at]. *)
Theorem skip_after_completion_write_unconditional :
  (forall s i td k r,
      threads s !! i = Some (td, AtCheck) ->
      hashable (transaction_id td) = Ok k ->
      TRANSACTIONS s !! k = Some r ->
      status r = PROCESSED ->
      step (Check i) s =
        Some {| TRANSACTIONS := TRANSACTIONS s;
                work_queue := work_queue s;
                threads := <[i := (td, Done Returned)]> (threads s);
                logged := logged s ++
                          [(WARNING, IdempotencySkip (transaction_id td))] |}) /\
  (forall s i td k r now,
      threads s !! i = Some (td, AtSleep) ->
      hashable (transaction_id td) = Ok k ->
      TRANSACTIONS s !! k = Some r ->
      step (Wake i None now) s =
        Some {| TRANSACTIONS := <[k := completed now r]> (TRANSACTIONS s);
                work_queue := work_queue s;
                threads := <[i := (td, Done Returned)]> (threads s);
                logged := logged s ++
                          [(INFO, SuccessfullyProcessed (transaction_id td))] |} /\
      status (completed now r) = PROCESSED /\
      processed_at (completed now r) = Some (get_utc_timestamp now)) /\
  (forall evs s s' k r,
      run evs s = Some s' ->
      TRANSACTIONS s !! k = Some r ->
      status r = PROCESSED ->
      exists r', TRANSACTIONS s' !! k = Some r' /\ status r' = PROCESSED).
Proof.
  split; [|split].
  - intros s i td k r Hi Hk Hr Hs. cbn [step]. rewrite Hi.
    rewrite (check_step_processed td k r _ Hk Hr Hs). reflexivity.
  - intros s i td k r now Hi Hk Hr. split; [|split; reflexivity].
    cbn [step]. rewrite Hi. unfold wake_step.
    rewrite (completion_write_present _ k r now _ Hk Hr). reflexivity.
  - intros evs s s' k r Hrun Hr Hs.
    destruct (run_lookup evs s s' k r Hrun Hr) as (r' & Hr' & _ & Hst).
    eauto.
Qed.

(** A call that starts after the completion skips; the second of two
    overlapping calls completes a record that is already [PROCESSED]; the
    record is still [PROCESSED] at the end. *)
Lemma skip_after_completion_write_unconditional_witness :
  let r := record_t1 10 PROCESSED (Some "2024-05-17T12:00:30.000001Z") in
  let td := record_t1 10 PROCESSING None in
  (let s := after one_after_other in
   threads s !! 1 = Some (td, AtCheck) /\
   TRANSACTIONS s !! KStr "t1" = Some r /\
   step (Check 1) s =
     Some {| TRANSACTIONS := TRANSACTIONS s;
             work_queue := work_queue s;
             threads := <[1 := (td, Done Returned)]> (threads s);
             logged := logged s ++ [(WARNING, IdempotencySkip (PStr "t1"))] |}) /\
  (let s := after two_overlapping in
   threads s !! 1 = Some (td, AtSleep) /\
   TRANSACTIONS s !! KStr "t1" = Some r /\
   step (Wake 1 None (later 2)) s =
     Some {| TRANSACTIONS := <[KStr "t1" := completed (later 2) r]> (TRANSACTIONS s);
             work_queue := work_queue s;
             threads := <[1 := (td, Done Returned)]> (threads s);
             logged := logged s ++ [(INFO, SuccessfullyProcessed (PStr "t1"))] |}) /\
  (let s := after two_overlapping in
   let s' := after (two_overlapping ++ [Wake 1 None (later 2)]) in
   run [Wake 1 None (later 2)] s = Some s' /\
   exists r', TRANSACTIONS s' !! KStr "t1" = Some r' /\ status r' = PROCESSED).
Proof.
  intros r td.
  assert (threads (after one_after_other) !! 1 = Some (td, AtCheck)) as Hi1
    by (vm_compute; reflexivity).
  assert (TRANSACTIONS (after one_after_other) !! KStr "t1" = Some r) as Hr1
    by (vm_compute; reflexivity).
  assert (threads (after two_overlapping) !! 1 = Some (td, AtSleep)) as Hi2
    by (vm_compute; reflexivity).
  assert (TRANSACTIONS (after two_overlapping) !! KStr "t1" = Some r) as Hr2
    by (vm_compute; reflexivity).
  assert (run [Wake 1 None (later 2)] (after two_overlapping) =
            Some (after (two_overlapping ++ [Wake 1 None (later 2)]))) as Hrun
    by (vm_compute; reflexivity).
  destruct skip_after_completion_write_unconditional as (Hskip & Hwrite & Hstay).
  split; [|split].
  - split; [exact Hi1|]. split; [exact Hr1|].
    exact (Hskip _ 1 td (KStr "t1") r Hi1 eq_refl Hr1 eq_refl).
  - split; [exact Hi2|]. split; [exact Hr2|].
    exact (proj1 (Hwrite _ 1 td (KStr "t1") r (later 2) Hi2 eq_refl Hr2)).
  - split; [exact Hrun|].
    exact (Hstay _ _ _ (KStr "t1") r Hrun Hr2 eq_refl).
Defined.

(** C1 as stated fails.  The same id is delivered twice; both tasks pass
    their status check before either completes.  The first completion sets
    [processed_at]; the second, run on a record that is already
    [PROCESSED], sets another value.  Neither call took the skip path. *)
Lemma overlapping_duplicates_complete_twice :
  let s7 := after two_overlapping in
  let s8 := after (two_overlapping ++ [Wake 1 None (later 2)]) in
  run two_overlapping (boot ∅) = Some s7 /\
  TRANSACTIONS s7 !! KStr "t1" =
    Some (record_t1 10 PROCESSED (Some "2024-05-17T12:00:30.000001Z")) /\
  step (Wake 1 None (later 2)) s7 = Some s8 /\
  TRANSACTIONS s8 !! KStr "t1" =
    Some (record_t1 10 PROCESSED (Some "2024-05-17T12:00:30.000002Z")) /\
  logged s8 =
    [(INFO, WebhookReceived (PStr "t1"));
     (INFO, DuplicateWebhook (PStr "t1"));
     (INFO, StartingProcessing (PStr "t1"));
     (INFO, StartingProcessing (PStr "t1"));
     (INFO, SuccessfullyProcessed (PStr "t1"));
     (INFO, SuccessfullyProcessed (PStr "t1"))].
Proof. vm_compute. repeat split. Qed.

(** * Further properties *)

(** ** One call of the worker, one task of the pool *)

(** X1. On a record that is still [PROCESSING], a call whose sleep returns
    ends normally with that record completed (status [PROCESSED],
    [processed_at] the timestamp of the clock reading at completion), logs
    the start and the success, and leaves every other record alone. *)
Theorem process_transaction_completes td k r now (T : store) :
  hashable (transaction_id td) = Ok k ->
  T !! k = Some r ->
  status r = PROCESSING ->
  process_transaction td None now T =
    (Returned, <[k := completed now r]> T,
     [(INFO, StartingProcessing (transaction_id td));
      (INFO, SuccessfullyProcessed (transaction_id td))]) /\
  forall k', k' <> k ->
    (process_transaction td None now T).1.2 !! k' = T !! k'.
Proof.
  intros Hk Hr Hs.
  assert (process_transaction td None now T =
            (Returned, <[k := completed now r]> T,
             [(INFO, StartingProcessing (transaction_id td));
              (INFO, SuccessfullyProcessed (transaction_id td))])) as Heq.
  { unfold process_transaction, check_step, status_check, wake_step.
    rewrite Hk. cbn [bind]. rewrite Hr. cbn [fmap option_fmap option_map].
    rewrite Hs, (completion_write_present _ k r now T Hk Hr). reflexivity. }
  split; [exact Heq|].
  intros k' Hne. rewrite Heq. cbn [fst snd]. apply lookup_insert_ne. congruence.
Qed.

Lemma process_transaction_completes_witness :
  let td := record_t1 10 PROCESSING None in
  let T : store := <[KStr "t1" := td]> (main noon noon) in
  hashable (transaction_id td) = Ok (KStr "t1") /\
  T !! KStr "t1" = Some td /\
  status td = PROCESSING /\
  process_transaction td None (later 1) T =
    (Returned, <[KStr "t1" := completed (later 1) td]> T,
     [(INFO, StartingProcessing (PStr "t1"));
      (INFO, SuccessfullyProcessed (PStr "t1"))]).
Proof.
  intros td T.
  assert (T !! KStr "t1" = Some td) as Hr by apply lookup_insert_eq.
  split; [reflexivity|]. split; [exact Hr|]. split; [reflexivity|].
  exact (proj1 (process_transaction_completes td (KStr "t1") td (later 1) T
                  eq_refl Hr eq_refl)).
Defined.

Lemma status_check_processing txn_id k r (T : store) :
  hashable txn_id = Ok k ->
  T !! k = Some r ->
  status r = PROCESSING ->
  status_check txn_id T = Ok false.
Proof.
  intros Hk Hr Hs. unfold status_check. rewrite Hk. cbn [bind].
  rewrite Hr. cbn [fmap option_fmap option_map]. rewrite Hs. reflexivity.
Qed.

(** The oldest queued task, taken by a free thread and run to its end
    with nothing happening in between. *)
Lemma run_task s td q k r now :
  work_queue s = td :: q ->
  busy (threads s) < max_workers ->
  hashable (transaction_id td) = Ok k ->
  TRANSACTIONS s !! k = Some r ->
  status r = PROCESSING ->
  exists s',
    run [Start; Check (length (threads s)); Wake (length (threads s)) None now] s
      = Some s' /\
    TRANSACTIONS s' = <[k := completed now r]> (TRANSACTIONS s) /\
    work_queue s' = q /\
    threads s' = threads s ++ [(td, Done Returned)].
Proof.
  intros Hq Hbusy Hk Hr Hs.
  cbn [run step]. rewrite Hq.
  apply Nat.ltb_lt in Hbusy. rewrite Hbusy. cbn [threads TRANSACTIONS work_queue logged].
  rewrite list_lookup_middle by reflexivity.
  unfold check_step. rewrite (status_check_processing _ k r _ Hk Hr Hs).
  cbn [threads TRANSACTIONS work_queue logged].
  rewrite list_lookup_insert_eq by (rewrite length_app; cbn; lia).
  unfold wake_step. rewrite (completion_write_present _ k r now _ Hk Hr).
  eexists. split; [reflexivity|]. cbn [threads TRANSACTIONS work_queue].
  split; [reflexivity|]. split; [reflexivity|].
  rewrite list_insert_insert_eq.
  replace (length (threads s)) with (length (threads s) + 0) by lia.
  rewrite insert_app_r. reflexivity.
Qed.



Lemma step_webhook req now s resp (T' : store) sub l :
  receive_webhook req now (TRANSACTIONS s) = (resp, T', sub, l) ->
  step (Webhook req now) s =
    Some {| TRANSACTIONS := T';
            work_queue := work_queue s ++ option_list sub;
            threads := threads s;
            logged := logged s ++ l |}.
Proof. intros H. cbn [step]. rewrite H. reflexivity. Qed.

Lemma run_cons ev evs s :
  run (ev :: evs) s =
    match step ev s with
    | Some s' => run evs s'
    | None => None
    end.
Proof. reflexivity. Qed.

(** X3. A record that is still [PROCESSING] (for instance because its task
    failed) is processed when its id is delivered again: the delivery
    changes nothing in the store but queues a task, and that task completes
    the stored record, whose payload is the first delivery's. *)
Theorem redelivery_processes_pending_record d txn_id k r now now' s :
  dict_lookup "transaction_id" d = Some txn_id ->
  hashable txn_id = Ok k ->
  TRANSACTIONS s !! k = Some r ->
  status r = PROCESSING ->
  work_queue s = [] ->
  busy (threads s) < max_workers ->
  exists s',
    run [ Webhook (Ok (PDict d)) now; Start;
          Check (length (threads s)); Wake (length (threads s)) None now' ] s
      = Some s' /\
    TRANSACTIONS s' = <[k := completed now' r]> (TRANSACTIONS s).
Proof.
  intros Hid Hk Hr Hs Hq Hbusy.
  pose proof (receive_webhook_dict d txn_id k now (TRANSACTIONS s) Hid Hk) as Hw.
  cbn zeta in Hw. rewrite Hr in Hw.
  pose proof (step_webhook _ _ s _ _ _ _ Hw) as Hstep.
  rewrite Hq in Hstep. cbn [option_list app] in Hstep.
  match type of Hstep with _ = Some ?x => set (s1 := x) in Hstep end.
  destruct (run_task s1 (new_transaction txn_id d (get_utc_timestamp now)) []
              k r now') as (s2 & Hrun & HT & _);
    [reflexivity|exact Hbusy|exact Hk|exact Hr|exact Hs|].
  exists s2. split; [|exact HT].
  rewrite run_cons, Hstep. exact Hrun.
Qed.

Lemma redelivery_processes_pending_record_witness :
  let d := [("transaction_id", PStr "t1"); ("amount", PInt 99)] in
  let s := after failed_once in
  let r := record_t1 10 PROCESSING None in
  dict_lookup "transaction_id" d = Some (PStr "t1") /\
  TRANSACTIONS s !! KStr "t1" = Some r /\
  threads s = [(r, Done (Raised (OtherError "OSError")))] /\
  work_queue s = [] /\
  busy (threads s) < max_workers /\
  exists s',
    run [ Webhook (Ok (PDict d)) (later 2); Start; Check 1;
          Wake 1 None (later 3) ] s = Some s' /\
    TRANSACTIONS s' = <[KStr "t1" := completed (later 3) r]> (TRANSACTIONS s).
Proof.
  intros d s r.
  assert (TRANSACTIONS s !! KStr "t1" = Some r) as Hr by (vm_compute; reflexivity).
  assert (threads s = [(r, Done (Raised (OtherError "OSError")))]) as Hth
    by (vm_compute; reflexivity).
  assert (work_queue s = []) as Hq by (vm_compute; reflexivity).
  assert (busy (threads s) < max_workers) as Hbusy
    by (rewrite Hth; unfold max_workers; cbn; lia).
  split; [reflexivity|]. split; [exact Hr|]. split; [exact Hth|].
  split; [exact Hq|]. split; [exact Hbusy|].
  pose proof (redelivery_processes_pending_record d (PStr "t1") (KStr "t1") r
                (later 2) (later 3) s eq_refl eq_refl Hr eq_refl Hq Hbusy) as H.
  rewrite Hth in H. exact H.
Defined.

(** ** An idle service *)

Lemma busy_lookup ths i (th : transaction * phase) :
  ths !! i = Some th -> is_busy th = true -> 0 < busy ths.
Proof.
  intros Hi Hb. unfold busy.
  assert (In th (List.filter is_busy ths)) as Hin.
  { apply filter_In. split; [|exact Hb].
    apply list_elem_of_In, list_elem_of_lookup. eauto. }
  destruct (List.filter is_busy ths); [destruct Hin|cbn; lia].
Qed.

Lemma idle_step ev s s' :
  work_queue s = [] ->
  busy (threads s) = 0 ->
  is_webhook ev = false ->
  step ev s = Some s' ->
  s' = s.
Proof.
  intros Hq Hbusy Hev Hstep.
  destruct ev as [req now|id|now| |i|i sleep now]; cbn [step] in Hstep.
  - discriminate Hev.
  - congruence.
  - congruence.
  - rewrite Hq in Hstep. discriminate.
  - destruct (threads s !! i) as [[td ph]|] eqn:Hi; [|discriminate].
    destruct ph; try discriminate.
    pose proof (busy_lookup _ _ _ Hi eq_refl). lia.
  - destruct (threads s !! i) as [[td ph]|] eqn:Hi; [|discriminate].
    destruct ph; try discriminate.
    pose proof (busy_lookup _ _ _ Hi eq_refl). lia.
Qed.

(** X4. When no task is queued and none is running, nothing but a new
    delivery changes the service: under any schedule without a webhook the
    state stays exactly as it is.  A record left [PROCESSING] by a failed
    task is therefore never retried on its own. *)
Theorem idle_service_changes_only_by_delivery evs s s' :
  work_queue s = [] ->
  busy (threads s) = 0 ->
  forallb (fun ev => negb (is_webhook ev)) evs = true ->
  run evs s = Some s' ->
  s' = s.
Proof.
  intros Hq Hbusy. revert s'.
  induction evs as [|ev evs IH]; intros s' Hevs Hrun.
  - cbn in Hrun. congruence.
  - cbn [forallb] in Hevs. apply andb_true_iff in Hevs as [Hev Hevs].
    apply negb_true_iff in Hev.
    cbn [run] in Hrun. destruct (step ev s) as [s1|] eqn:Hstep; [|discriminate].
    rewrite (idle_step ev s s1 Hq Hbusy Hev Hstep) in Hrun.
    exact (IH s' Hevs Hrun).
Qed.

Lemma idle_service_changes_only_by_delivery_witness :
  let s := after failed_once in
  let evs := [Query "t1"; Health (later 2); Query "t1"] in
  work_queue s = [] /\
  busy (threads s) = 0 /\
  forallb (fun ev => negb (is_webhook ev)) evs = true /\
  run evs s = Some s /\
  TRANSACTIONS s !! KStr "t1" = Some (record_t1 10 PROCESSING None) /\
  s = s.
Proof.
  intros s evs.
  assert (work_queue s = []) as Hq by (vm_compute; reflexivity).
  assert (busy (threads s) = 0) as Hbusy by (vm_compute; reflexivity).
  assert (run evs s = Some s) as Hrun by reflexivity.
  split; [exact Hq|]. split; [exact Hbusy|]. split; [reflexivity|].
  split; [exact Hrun|]. split; [vm_compute; reflexivity|].
  exact (idle_service_changes_only_by_delivery evs s s Hq Hbusy eq_refl Hrun).
Defined.

(** ** The pool *)






(** ** Where records come from *)

Lemma wake_step_absent td sleep now (T : store) k :
  T !! k = None -> (wake_step td sleep now T).1.2 !! k = None.
Proof.
  intros Hnone. unfold wake_step. destruct sleep as [e|]; [exact Hnone|].
  destruct (hashable (transaction_id td)) as [k0|e] eqn:Hk.
  - destruct (T !! k0) as [r|] eqn:Hr.
    + rewrite (completion_write_present _ _ _ _ _ Hk Hr). cbn [fst snd].
      rewrite lookup_insert_ne by congruence. exact Hnone.
    + rewrite (completion_write_absent _ _ _ _ Hk Hr). exact Hnone.
  - unfold completion_write. rewrite Hk. exact Hnone.
Qed.

Lemma step_absent ev s s' k :
  step ev s = Some s' ->
  delivers k ev = false ->
  TRANSACTIONS s !! k = None ->
  TRANSACTIONS s' !! k = None.
Proof.
  intros Hstep Hdel Hnone.
  destruct ev as [req now|id|now| |i|i sleep now]; cbn [step] in Hstep.
  - destruct (receive_webhook_cases req now (TRANSACTIONS s))
      as [(resp & l & Heq & _)|(d & id & k0 & T' & l & -> & Hid & Hk & Heq & HT)];
      rewrite Heq in Hstep; injection Hstep as <-; cbn [TRANSACTIONS];
      [exact Hnone|].
    destruct HT as [[_ ->]|[_ ->]]; [|exact Hnone].
    cbn [delivers] in Hdel. rewrite Hid, Hk in Hdel.
    apply bool_decide_eq_false in Hdel.
    rewrite lookup_insert_ne by exact Hdel. exact Hnone.
  - injection Hstep as <-. exact Hnone.
  - injection Hstep as <-. exact Hnone.
  - destruct (work_queue s); [discriminate|].
    destruct (busy (threads s) <? max_workers); [|discriminate].
    injection Hstep as <-. exact Hnone.
  - destruct (threads s !! i) as [[td []]|]; try discriminate.
    destruct (check_step td (TRANSACTIONS s)) as [ph l].
    injection Hstep as <-. exact Hnone.
  - destruct (threads s !! i) as [[td []]|]; try discriminate.
    pose proof (wake_step_absent td sleep now (TRANSACTIONS s) k Hnone) as H.
    destruct (wake_step td sleep now (TRANSACTIONS s)) as [[o T'] l].
    injection Hstep as <-. exact H.
Qed.

(** X6. An id that is not stored and that no webhook of the schedule
    delivers is still unknown at the end: the query answers 404 with
    [{"error": "Transaction not found"}].  Nothing but a delivery carrying
    the id creates a record for it. *)
Theorem undelivered_id_is_not_found evs s s' id :
  TRANSACTIONS s !! KStr id = None ->
  forallb (fun ev => negb (delivers (KStr id) ev)) evs = true ->
  run evs s = Some s' ->
  get_transaction_status id (TRANSACTIONS s') =
    {| http_status := 404; body := BodyError "Transaction not found" |}.
Proof.
  intros Hnone Hevs Hrun.
  assert (TRANSACTIONS s' !! KStr id = None) as Hnone'.
  { revert s Hnone Hrun. induction evs as [|ev evs IH]; intros s Hnone Hrun.
    - cbn in Hrun. congruence.
    - cbn [forallb] in Hevs. apply andb_true_iff in Hevs as [Hev Hevs].
      apply negb_true_iff in Hev. rewrite run_cons in Hrun.
      destruct (step ev s) as [s1|] eqn:Hstep; [|discriminate].
      exact (IH Hevs s1 (step_absent ev s s1 _ Hstep Hev Hnone) Hrun). }
  unfold get_transaction_status. rewrite Hnone'. reflexivity.
Qed.

Lemma undelivered_id_is_not_found_witness :
  let evs := two_overlapping ++ [Wake 1 None (later 2); Query "t2"] in
  TRANSACTIONS (boot (main noon noon)) !! KStr "t2" = None /\
  forallb (fun ev => negb (delivers (KStr "t2") ev)) evs = true /\
  run evs (boot (main noon noon)) =
    Some (default (boot ∅) (run evs (boot (main noon noon)))) /\
  get_transaction_status "t2"
    (TRANSACTIONS (default (boot ∅) (run evs (boot (main noon noon))))) =
    {| http_status := 404; body := BodyError "Transaction not found" |}.
Proof.
  intros evs.
  assert (TRANSACTIONS (boot (main noon noon)) !! KStr "t2" = None) as Hnone
    by (vm_compute; reflexivity).
  assert (forallb (fun ev => negb (delivers (KStr "t2") ev)) evs = true) as Hevs
    by (vm_compute; reflexivity).
  assert (run evs (boot (main noon noon)) =
            Some (default (boot ∅) (run evs (boot (main noon noon))))) as Hrun
    by (vm_compute; reflexivity).
  split; [exact Hnone|]. split; [exact Hevs|]. split; [exact Hrun|].
  exact (undelivered_id_is_not_found evs _ _ "t2" Hnone Hevs Hrun).
Defined.

(** ** Keys and ids *)

Lemma num_key_not_str neg m e id : num_key neg m e <> KStr id.
Proof. unfold num_key. destruct (odd_part m e). discriminate. Qed.

Lemma int_key_not_str z id : int_key z <> KStr id.
Proof. destruct z; cbn [int_key]; [discriminate|apply num_key_not_str..]. Qed.

(** Only a [str] hashes to a string key. *)
Lemma hashable_KStr v id : hashable v = Ok (KStr id) -> v = PStr id.
Proof.
  destruct v as [|b|z|f|s|l|d]; cbn [hashable]; intros H; try discriminate H.
  - injection H as H. destruct (int_key_not_str _ _ H).
  - injection H as H. destruct (int_key_not_str _ _ H).
  - destruct f; try discriminate H.
    injection H as H. destruct (num_key_not_str _ _ _ _ H).
  - congruence.
Qed.

Lemma keyed_by_id_step (T T' : store) :
  store_step T T' -> keyed_by_id T -> keyed_by_id T'.
Proof.
  intros Hstep HT.
  destruct Hstep as [T|T k td now Hnone Hk Hs Hp Hc|T k r now Hr].
  - exact HT.
  - apply map_Forall_insert_2; [exact Hk|exact HT].
  - apply map_Forall_insert_2; [exact (HT k r Hr)|exact HT].
Qed.

Lemma reachable_keyed_by_id s : reachable s -> keyed_by_id (TRANSACTIONS s).
Proof.
  intros (T0 & evs & Hinit & Hrun).
  refine (run_invariant (fun s1 => keyed_by_id (TRANSACTIONS s1)) _
            evs (boot T0) s Hrun _).
  - intros ev s1 s2 Hstep. apply keyed_by_id_step, step_store_step with ev, Hstep.
  - destruct Hinit as [|now1 now2]; cbn [boot TRANSACTIONS].
    + apply map_Forall_empty.
    + apply map_Forall_insert_2; [reflexivity|apply map_Forall_empty].
Qed.

(** X7. Whenever a status query answers 200, the record it returns carries
    the queried id in its [transaction_id] field. *)
Theorem query_returns_record_of_that_id s id r :
  reachable s ->
  get_transaction_status id (TRANSACTIONS s) =
    {| http_status := 200; body := BodyRecord r |} ->
  transaction_id r = PStr id.
Proof.
  intros Hreach Hq. unfold get_transaction_status in Hq.
  destruct (TRANSACTIONS s !! KStr id) as [r0|] eqn:Hr; [|discriminate Hq].
  injection Hq as ->.
  apply hashable_KStr. exact (reachable_keyed_by_id s Hreach _ _ Hr).
Qed.

Lemma query_returns_record_of_that_id_witness :
  let r := record_t1 10 PROCESSED (Some "2024-05-17T12:00:30.000001Z") in
  reachable (after two_overlapping) /\
  get_transaction_status "t1" (TRANSACTIONS (after two_overlapping)) =
    {| http_status := 200; body := BodyRecord r |} /\
  transaction_id r = PStr "t1".
Proof.
  intros r.
  assert (reachable (after two_overlapping)) as Hreach
    by (apply (after_reachable two_overlapping); vm_compute; reflexivity).
  assert (get_transaction_status "t1" (TRANSACTIONS (after two_overlapping)) =
            {| http_status := 200; body := BodyRecord r |}) as Hq
    by (vm_compute; reflexivity).
  split; [exact Hreach|]. split; [exact Hq|].
  exact (query_returns_record_of_that_id _ "t1" r Hreach Hq).
Defined.

(** X8. A delivery whose [transaction_id] is not a string (a number,
    [true], [null]) may well be answered 202 and stored, but no status
    query ever finds it: the route passes a [str], and no other value
    shares a key with a [str].  The answers of all queries are as before
    the delivery. *)
Theorem non_string_id_is_never_found d txn_id now (T : store) id :
  dict_lookup "transaction_id" d = Some txn_id ->
  (forall s, txn_id <> PStr s) ->
  get_transaction_status id (receive_webhook (Ok (PDict d)) now T).1.1.2 =
  get_transaction_status id T.
Proof.
  intros Hid Hns.
  destruct (hashable txn_id) as [k|e] eqn:Hk.
  - rewrite (receive_webhook_dict d txn_id k now T Hid Hk). cbn zeta.
    destruct (T !! k); cbn [fst snd]; [reflexivity|].
    unfold get_transaction_status. rewrite lookup_insert_ne; [reflexivity|].
    intros ->. exact (Hns id (hashable_KStr _ _ Hk)).
  - rewrite (receive_webhook_unhashable d txn_id e now T Hid Hk). reflexivity.
Qed.

Lemma non_string_id_is_never_found_witness :
  let d := [("transaction_id", PInt 5); ("amount", PInt 10)] in
  dict_lookup "transaction_id" d = Some (PInt 5) /\
  (forall s, PInt 5 <> PStr s) /\
  (receive_webhook (Ok (PDict d)) noon ∅).1.1.1 = accepted (PInt 5) /\
  get_transaction_status "5" (receive_webhook (Ok (PDict d)) noon ∅).1.1.2 =
    {| http_status := 404; body := BodyError "Transaction not found" |}.
Proof.
  intros d.
  assert (forall s, PInt 5 <> PStr s) as Hns by discriminate.
  split; [reflexivity|]. split; [exact Hns|]. split; [vm_compute; reflexivity|].
  rewrite (non_string_id_is_never_found d (PInt 5) noon ∅ "5" eq_refl Hns).
  reflexivity.
Defined.

(** ** The answers of the ingestion handler *)

Lemma receive_webhook_scalar req now (T : store) :
  (forall d, req <> Ok (PDict d)) ->
  receive_webhook req now T =
    (if raises_internal req then internal_error else invalid_payload, T, None,
     if raises_internal req
     then [(ERROR, ErrorProcessingWebhook
                     match req with Raise e => e | Ok _ => TypeError end)]
     else []).
Proof.
  intros Hnd. unfold receive_webhook, webhook_try, bind.
  destruct req as [data|e]; [|reflexivity].
  destruct data as [|b|z|f|s|l|d]; cbn [truthy negb py_in py_getitem raises_internal].
  - reflexivity.
  - destruct b; reflexivity.
  - destruct (z =? 0)%Z; reflexivity.
  - destruct f; reflexivity.
  - destruct (String.eqb s ""); cbn [negb andb]; [reflexivity|].
    destruct (contains "transaction_id" s); reflexivity.
  - destruct l as [|v l]; cbn [negb andb]; [reflexivity|].
    destruct (existsb (is_str "transaction_id") (v :: l)); reflexivity.
  - destruct (Hnd d eq_refl).
Qed.

(** X9. The handler has exactly three answers.  With 400 or 500 the store
    is unchanged and nothing is submitted (400 logs nothing, 500 logs the
    exception).  With 202 exactly one task is submitted, for duplicates
    too, and it is always a fresh [PROCESSING] snapshot built from this
    delivery; the store gains that snapshot if the key was free and is
    unchanged otherwise. *)
Theorem receive_webhook_three_answers req now (T : store) :
  let '(resp, T', sub, l) := receive_webhook req now T in
  (resp = invalid_payload /\ T' = T /\ sub = None /\ l = []) \/
  (resp = internal_error /\ T' = T /\ sub = None /\
   exists e, l = [(ERROR, ErrorProcessingWebhook e)]) \/
  (exists d txn_id k,
      req = Ok (PDict d) /\
      dict_lookup "transaction_id" d = Some txn_id /\
      hashable txn_id = Ok k /\
      resp = accepted txn_id /\
      sub = Some (new_transaction txn_id d (get_utc_timestamp now)) /\
      (T !! k = None /\
       T' = <[k := new_transaction txn_id d (get_utc_timestamp now)]> T /\
       l = [(INFO, WebhookReceived txn_id)]
       \/
       is_Some (T !! k) /\ T' = T /\ l = [(INFO, DuplicateWebhook txn_id)])).
Proof.
  assert (forall r : result pyval, (forall d, r <> Ok (PDict d)) ->
            let '(resp, T', sub, l) := receive_webhook r now T in
            (resp = invalid_payload /\ T' = T /\ sub = None /\ l = []) \/
            (resp = internal_error /\ T' = T /\ sub = None /\
             exists e, l = [(ERROR, ErrorProcessingWebhook e)]) \/
            False) as Hscalar.
  { intros r Hnd. rewrite (receive_webhook_scalar r now T Hnd).
    destruct (raises_internal r); [right; left|left]; repeat split; eauto. }
  destruct req as [data|e].
  2:{ pose proof (Hscalar (Raise e) ltac:(discriminate)) as H.
      destruct (receive_webhook (Raise e) now T) as [[[resp T'] sub] l].
      cbv beta iota in H. destruct H as [H|[H|[]]]; auto. }
  destruct data as [|b|z|f|str|vs|d];
    try match goal with
        | |- context [receive_webhook ?r _ _] =>
            pose proof (Hscalar r ltac:(discriminate)) as H;
            destruct (receive_webhook r now T) as [[[resp T'] sub] l];
            cbv beta iota in H; destruct H as [H|[H|[]]]; solve [auto]
        end.
  destruct (dict_lookup "transaction_id" d) as [txn_id|] eqn:Hid.
  - destruct (hashable txn_id) as [k|e] eqn:Hk.
    + rewrite (receive_webhook_dict d txn_id k now T Hid Hk). cbn zeta.
      destruct (T !! k) as [r|] eqn:Hr; right; right; exists d, txn_id, k;
        repeat (split; [reflexivity || assumption|]); [right|left]; eauto.
    + rewrite (receive_webhook_unhashable d txn_id e now T Hid Hk).
      right; left. repeat split; eauto.
  - rewrite (receive_webhook_no_key d now T Hid). left. repeat split.
Qed.

(** X10. The 500 answer is given exactly for the requests described by
    [raises_internal], whatever the store and the clock: an unreadable
    body, a truthy body that is a number or [true], a string or array that
    contains ['transaction_id'], an object whose [transaction_id] is an
    array or an object.  None of these gets the 400 answer. *)
Theorem internal_error_iff_raises req now (T : store) :
  http_status (receive_webhook req now T).1.1.1 = 500 <->
  raises_internal req = true.
Proof.
  destruct req as [data|e].
  2:{ split; reflexivity. }
  destruct data as [| | | | | |d];
    try match goal with
        | |- context [receive_webhook ?r _ _] =>
            rewrite (receive_webhook_scalar r now T) by discriminate;
            destruct (raises_internal r); cbn; split; congruence
        end.
  cbn [raises_internal].
  destruct (dict_lookup "transaction_id" d) as [txn_id|] eqn:Hid.
  - assert (truthy (PDict d) = true) as ->
      by (destruct d; [discriminate Hid|reflexivity]).
    destruct (hashable txn_id) as [k|e] eqn:Hk.
    + rewrite (receive_webhook_dict d txn_id k now T Hid Hk). cbn zeta.
      destruct (T !! k); cbn; split; discriminate.
    + rewrite (receive_webhook_unhashable d txn_id e now T Hid Hk).
      split; reflexivity.
  - rewrite (receive_webhook_no_key d now T Hid), andb_false_r.
    cbn. split; discriminate.
Qed.

Lemma internal_error_iff_raises_witness :
  raises_internal (Ok (PInt 5)) = true /\
  raises_internal (Ok (PStr "my transaction_id")) = true /\
  http_status (receive_webhook (Ok (PInt 5)) noon (main noon noon)).1.1.1 = 500 /\
  http_status
    (receive_webhook (Ok (PStr "my transaction_id")) noon (main noon noon)).1.1.1
    = 500.
Proof.
  split; [reflexivity|]. split; [reflexivity|]. split.
  - exact (proj2 (internal_error_iff_raises (Ok (PInt 5)) noon (main noon noon))
             eq_refl).
  - exact (proj2 (internal_error_iff_raises (Ok (PStr "my transaction_id")) noon
                    (main noon noon)) eq_refl).
Defined.

(** ** The fraction of a timestamp *)









